(** * goflow: the Excellent function library, the legacy variable mappers,
      timeout waits and the set_contact_channel action

    A shallow embedding of the Go sources

      - [excellent/types/text.go]                (text values),
      - the [functions] package                  (built-in Excellent functions),
      - the legacy [expressions] package         (migration variable mappers),
      - [flows/waits/base.go]                    (waits that can time out),
      - [flows/actions/set_contact_channel.go]   (an action),
      - [flows/events/*.go]                      (event application),

    followed by the properties proved about them.  Go strings are byte
    strings ([string] of [ascii]); Go's [int], [int64] and [time.Duration]
    are integers of [Z] with the 64-bit wrap-around written out where the
    code computes with them. *)

From Stdlib Require Import ZArith List String Ascii Bool Lia.
From Stdlib Require Import SpecFloat.
Import ListNotations.

Set Warnings "-register-all".

Local Open Scope string_scope.
Local Open Scope Z_scope.

(* ================================================================== *)
(** * Go runtime: fixed-width integers and the [strings] package       *)
(* ================================================================== *)

Module Go.

(** A signed 64-bit integer holds [wrap64 z] after an operation whose
    mathematical result is [z]. *)
Definition minInt64 : Z := - 2 ^ 63.
Definition maxInt64 : Z := 2 ^ 63 - 1.
Definition wrap64 (z : Z) : Z := (z + 2 ^ 63) mod 2 ^ 64 - 2 ^ 63.

Definition isInt64 (z : Z) : bool := (minInt64 <=? z) && (z <=? maxInt64).

(** [len(xs)] as a Go [int]. *)
Definition len {A} (xs : list A) : Z := Z.of_nat (List.length xs).

(** [xs[lo:hi]] and [xs[lo:]] for in-range bounds [0 <= lo <= hi <= len]. *)
Definition slice {A} (xs : list A) (lo hi : Z) : list A :=
  firstn (Z.to_nat (hi - lo)) (skipn (Z.to_nat lo) xs).
Definition sliceFrom {A} (xs : list A) (lo : Z) : list A :=
  skipn (Z.to_nat lo) xs.

(** [strings.Join]. *)
Fixpoint Join (elems : list string) (sep : string) : string :=
  match elems with
  | [] => ""
  | [e] => e
  | e :: rest => e ++ sep ++ Join rest sep
  end.

(** [strings.ToLower] on the ASCII range: the bytes ['A'..'Z'] are
    mapped to ['a'..'z'].  Bytes from 0x80 on are kept as they are; no
    rune outside ASCII lower-cases to an ASCII letter of the words the
    code compares with (["false"], the mappers' keys). *)
Definition lowerByte (c : ascii) : ascii :=
  let n := N_of_ascii c in
  if ((65 <=? n) && (n <=? 90))%N then ascii_of_N (n + 32) else c.

Fixpoint ToLower (s : string) : string :=
  match s with
  | EmptyString => EmptyString
  | String c rest => String (lowerByte c) (ToLower rest)
  end.

(** [strconv.Itoa] / [strconv.FormatInt(_, 10)]. *)
Definition digitChar (d : Z) : ascii := ascii_of_N (48 + Z.to_N d).

Fixpoint digitsOf (fuel : nat) (n : Z) (acc : string) : string :=
  match fuel with
  | O => acc
  | S fuel' =>
      let acc' := String (digitChar (n mod 10)) acc in
      if n <? 10 then acc' else digitsOf fuel' (n / 10) acc'
  end.

Definition Itoa (n : Z) : string :=
  let a := Z.abs n in
  let ds := digitsOf (S (Z.to_nat (Z.log2 a))) a "" in
  if n <? 0 then String "-" ds else ds.

End Go.

(* ================================================================== *)
(** * Go's [time] package, as far as the functions use it              *)
(* ================================================================== *)

Module time.

(** A location is modelled by a fixed offset east of UTC, in seconds
    (the zone in force for the instants considered). *)
Record Location := mkLocation { zoneName : string; zoneOffset : Z }.

Definition UTC : Location := mkLocation "UTC" 0.

(** An instant: seconds since the Unix epoch, nanoseconds within the
    second, and the location it is displayed in. *)
Record Time := mkTime { unixSec : Z; nsec : Z; loc : Location }.

(** [time.Duration]: a signed 64-bit count of nanoseconds. *)
Definition Nanosecond : Z := 1.
Definition Second : Z := 1000000000.
Definition Minute : Z := 60 * Second.
Definition Hour : Z := 60 * Minute.

Definition minDuration : Z := Go.minInt64.
Definition maxDuration : Z := Go.maxInt64.

Definition secondsPerMinute : Z := 60.
Definition secondsPerHour : Z := 3600.
Definition secondsPerDay : Z := 86400.
Definition daysPer400Years : Z := 365 * 400 + 97.
Definition daysPer100Years : Z := 365 * 100 + 24.
Definition daysPer4Years : Z := 365 * 4 + 1.

(** The year of the "absolute" epoch the package counts days from, and
    the offsets between the absolute, internal (year 1) and Unix epochs. *)
Definition absoluteZeroYear : Z := -292277022399.
Definition unixToInternal : Z :=
  (1969 * 365 + 1969 / 4 - 1969 / 100 + 1969 / 400) * secondsPerDay.
Definition internalToUnix : Z := - unixToInternal.
Definition absoluteToInternal : Z := -9223371966579724800.
Definition internalToAbsolute : Z := - absoluteToInternal.

Definition daysBefore : list Z :=
  [0; 31; 59; 90; 120; 151; 181; 212; 243; 273; 304; 334; 365].

Definition daysBeforeAt (i : Z) : Z := nth (Z.to_nat i) daysBefore 0.

Definition isLeap (year : Z) : bool :=
  (Z.rem year 4 =? 0) && (negb (Z.rem year 100 =? 0) || (Z.rem year 400 =? 0)).

(** [norm(hi, lo, base)]: carries [lo] into [hi] so that [0 <= lo < base]. *)
Definition norm (hi lo base : Z) : Z * Z :=
  let '(hi1, lo1) :=
    if lo <? 0 then
      let n := Z.quot (- lo - 1) base + 1 in (hi - n, lo + n * base)
    else (hi, lo) in
  if lo1 >=? base then
    let n := Z.quot lo1 base in (hi1 + n, lo1 - n * base)
  else (hi1, lo1).

(** [daysSinceEpoch(year)]: days from the absolute epoch to 1 January of
    [year]. *)
Definition daysSinceEpoch (year : Z) : Z :=
  let y := year - absoluteZeroYear in
  let n400 := y / 400 in
  let y1 := y - 400 * n400 in
  let d1 := daysPer400Years * n400 in
  let n100 := y1 / 100 in
  let y2 := y1 - 100 * n100 in
  let d2 := d1 + daysPer100Years * n100 in
  let n4 := y2 / 4 in
  let y3 := y2 - 4 * n4 in
  let d3 := d2 + daysPer4Years * n4 in
  d3 + 365 * y3.

(** [time.Date(year, month, day, hour, min, sec, nsec, loc)]. *)
Definition Date (year month day hour min sec nsec : Z) (l : Location) : Time :=
  let m := month - 1 in
  let '(year, m) := norm year m 12 in
  let month := m + 1 in
  let '(sec, nsec) := norm sec nsec 1000000000 in
  let '(min, sec) := norm min sec 60 in
  let '(hour, min) := norm hour min 60 in
  let '(day, hour) := norm day hour 24 in
  let d := daysSinceEpoch year in
  let d := d + daysBeforeAt (month - 1) in
  let d := if isLeap year && (month >=? 3) then d + 1 else d in
  let d := d + (day - 1) in
  let abs := d * secondsPerDay in
  let abs := abs + (hour * secondsPerHour + min * secondsPerMinute + sec) in
  let unix := abs + (absoluteToInternal + internalToUnix) in
  let unix := unix - zoneOffset l in
  mkTime unix nsec l.

(** [t.abs()]: seconds since the absolute epoch, on the wall clock of
    [t]'s location. *)
Definition abs (t : Time) : Z :=
  unixSec t + zoneOffset (loc t) + (unixToInternal + internalToAbsolute).

(** [absDate(abs, true)]: the civil year, month and day of an absolute
    time. *)
Definition absDate (abs : Z) : Z * Z * Z :=
  let d := abs / secondsPerDay in
  let n := d / daysPer400Years in
  let y := 400 * n in
  let d := d - daysPer400Years * n in
  let n := d / daysPer100Years in
  let n := n - Z.shiftr n 2 in
  let y := y + 100 * n in
  let d := d - daysPer100Years * n in
  let n := d / daysPer4Years in
  let y := y + 4 * n in
  let d := d - daysPer4Years * n in
  let n := d / 365 in
  let n := n - Z.shiftr n 2 in
  let y := y + n in
  let d := d - 365 * n in
  let year := y + absoluteZeroYear in
  let day := d in
  if isLeap year && (day =? 31 + 29 - 1) then (year, 2, 29)
  else
    let day := if isLeap year && (day >? 31 + 29 - 1) then day - 1 else day in
    let month := day / 31 in
    let endd := daysBeforeAt (month + 1) in
    let '(month, begin) :=
      if day >=? endd then (month + 1, endd) else (month, daysBeforeAt month) in
    (year, month + 1, day - begin + 1).

Definition Year (t : Time) : Z := fst (fst (absDate (abs t))).
Definition Month (t : Time) : Z := snd (fst (absDate (abs t))).
Definition Day (t : Time) : Z := snd (absDate (abs t)).

(** Hour, minute and second of the wall clock ([t.Clock()]). *)
Definition Clock (t : Time) : Z * Z * Z :=
  let s := abs t mod secondsPerDay in
  (s / secondsPerHour, (s mod secondsPerHour) / secondsPerMinute, s mod secondsPerMinute).

(** [t.UTC()]: the same instant, displayed in UTC. *)
Definition toUTC (t : Time) : Time := mkTime (unixSec t) (nsec t) UTC.

(** [t.Add(d)]. *)
Definition Add (t : Time) (d : Z) : Time :=
  let dsec := Z.quot d 1000000000 in
  let n := nsec t + Z.rem d 1000000000 in
  let '(dsec, n) :=
    if n >=? 1000000000 then (dsec + 1, n - 1000000000)
    else if n <? 0 then (dsec - 1, n + 1000000000)
    else (dsec, n) in
  mkTime (unixSec t + dsec) n (loc t).

(** [t.Sub(u)]: the duration [t - u], saturated at the largest and
    smallest durations. *)
Definition Sub (t u : Time) : Z :=
  let d := (unixSec t - unixSec u) * Second + (nsec t - nsec u) in
  if Go.isInt64 d then d
  else if d <? 0 then minDuration
  else maxDuration.

(** Nanoseconds since the Unix epoch (exact, unbounded). *)
Definition instant (t : Time) : Z := unixSec t * 1000000000 + nsec t.

End time.

(* ================================================================== *)
(** * IEEE 754 binary64 ([float64]) and [math.Modf]                    *)
(* ================================================================== *)

Module float64.

Definition prec : Z := 53.
Definition emax : Z := 1024.

(** A [float64] is a binary64 number in the representation of
    [SpecFloat]; the operations round to nearest, ties to even. *)
Definition float64 : Type := spec_float.

(** The [float64] nearest to the integer [z]. *)
Definition ofInt (z : Z) : float64 := binary_normalize prec emax z 0 false.

(** The [float64] nearest to the ratio [p / q] (with the sign [neg]). *)
Definition ofRatio (neg : bool) (p q : positive) : float64 :=
  SFdiv prec emax (S754_finite neg p 0) (S754_finite false q 0).

Definition add : float64 -> float64 -> float64 := SFadd prec emax.
Definition sub : float64 -> float64 -> float64 := SFsub prec emax.
Definition mul : float64 -> float64 -> float64 := SFmul prec emax.
Definition neg : float64 -> float64 := SFopp.
Definition ltb : float64 -> float64 -> bool := SFltb.
Definition leb : float64 -> float64 -> bool := SFleb.
Definition eqb : float64 -> float64 -> bool := SFeqb.

Definition zero : float64 := S754_zero false.

(** The integer part of a finite number, rounded toward zero. *)
Definition trunc (f : float64) : Z :=
  match f with
  | S754_finite s m e =>
      let a := if 0 <=? e then Z.pos m * 2 ^ e else Z.pos m / 2 ^ (- e) in
      if s then - a else a
  | _ => 0
  end.

(** The conversions [int64(f)] and [int(f)]: exact when the integer part
    fits; otherwise (and for infinities and NaN) the result is
    implementation-specific, on amd64 the smallest [int64]. *)
Definition toInt64 (f : float64) : Z :=
  match f with
  | S754_zero _ => 0
  | S754_finite _ _ _ =>
      if Go.isInt64 (trunc f) then trunc f else Go.minInt64
  | _ => Go.minInt64
  end.

(** [math.Modf] on [f >= 1] (and on infinities and NaN): the integer
    part keeps the bits above the binary point. *)
Definition modfBits (f : float64) : float64 * float64 :=
  match f with
  | S754_finite _ _ e =>
      let int := if 0 <=? e then f else ofInt (trunc f) in
      (int, sub f int)
  | _ => (f, sub f f)
  end.

(** [math.Modf]. *)
Definition Modf (f : float64) : float64 * float64 :=
  if ltb f (ofInt 1) then
    if ltb f zero then
      let g := neg f in
      let '(int, frac) :=
        if ltb g (ofInt 1) then (zero, g) else modfBits g in
      (neg int, neg frac)
    else if eqb f zero then (f, f)
    else (zero, f)
  else modfBits f.

End float64.

(* ================================================================== *)
(** * [shopspring/decimal]: arbitrary-precision decimals              *)
(* ================================================================== *)

Module decimal.

(** [value * 10 ^ exp]. *)
Record Decimal := New { value : Z; exp : Z }.

(** [d.IntPart()]: the integer part, truncated toward zero, as an
    [int64] (the low 64 bits when it does not fit). *)
Definition IntPart (d : Decimal) : Z :=
  Go.wrap64
    (if 0 <=? exp d then value d * 10 ^ exp d
     else Z.quot (value d) (10 ^ (- exp d))).

(** [d.Float64()]: the [float64] nearest to [d] (that of the rational
    [d.Rat()]). *)
Definition Float64 (d : Decimal) : float64.float64 :=
  let scale := Z.to_pos (10 ^ Z.abs (exp d)) in
  match value d with
  | Z0 => float64.zero
  | Z.pos p =>
      if 0 <=? exp d then float64.ofRatio false (p * scale) 1
      else float64.ofRatio false p scale
  | Z.neg p =>
      if 0 <=? exp d then float64.ofRatio true (p * scale) 1
      else float64.ofRatio true p scale
  end.

End decimal.

(* ================================================================== *)
(** * [dustin/go-humanize]: [FormatFloat]                              *)
(* ================================================================== *)

Module humanize.
Import float64.

Definition renderFloatPrecisionMultipliers : list float64 :=
  map ofInt [1; 10; 100; 1000; 10000; 100000; 1000000; 10000000;
             100000000; 1000000000].

(** [0.5, 0.05, ..., 0.0000000005]. *)
Definition renderFloatPrecisionRounders : list float64 :=
  map (ofRatio false 5)
      [10; 100; 1000; 10000; 100000; 1000000; 10000000; 100000000;
       1000000000; 10000000000]%positive.

(** What a format string asks for. *)
Record directives := mkDirectives {
  precision : Z;
  decimalStr : string;
  thousandStr : string;
  positiveStr : string;
  negativeStr : string
}.

(** Indices of the characters of [format] other than ['#'] and ['0']. *)
Fixpoint formatIndx (format : string) (i : Z) : list Z :=
  match format with
  | EmptyString => []
  | String c rest =>
      if Ascii.eqb c "#" || Ascii.eqb c "0" then formatIndx rest (i + 1)
      else i :: formatIndx rest (i + 1)
  end.

Definition charAt (format : string) (i : Z) : string :=
  match String.get (Z.to_nat i) format with
  | Some c => String c ""
  | None => ""
  end.

Definition strlen (s : string) : Z := Z.of_nat (String.length s).

(** The first half of [FormatFloat]: reading the format.  [None] is a
    panic on an invalid format. *)
Definition parseFormat (format : string) : option directives :=
  if strlen format >? 0 then
    let idx := formatIndx format 0 in
    (* directive at index 0: must be a '+' *)
    let step1 :=
      match idx with
      | i0 :: rest =>
          if i0 =? 0 then
            if String.eqb (charAt format i0) "+" then Some ("+", rest)
            else None
          else Some ("", idx)
      | [] => Some ("", idx)
      end in
    match step1 with
    | None => None
    | Some (positive, idx) =>
        (* two directives: the first is the thousands separator *)
        let step2 :=
          match idx with
          | [i0; i1] =>
              if negb (i1 - i0 =? 4) then None
              else Some (charAt format i0, [i1])
          | _ => Some ("", idx)
          end in
        match step2 with
        | None => None
        | Some (thousand, idx) =>
            (* one directive: the decimal separator *)
            match idx with
            | [i0] =>
                Some (mkDirectives (strlen format - i0 - 1)
                                   (charAt format i0) thousand positive "-")
            | _ => Some (mkDirectives 9 "." thousand positive "-")
            end
        end
    end
  else Some (mkDirectives 2 "." "," "" "-").

(** [for i := len(intStr); i > 3; { i -= 3; intStr = intStr[:i] +
    thousandStr + intStr[i:] }]. *)
Fixpoint insertThousands (fuel : nat) (i : Z) (thousand intStr : string)
  : string :=
  match fuel with
  | O => intStr
  | S fuel' =>
      if i >? 3 then
        let i := i - 3 in
        let n := Z.to_nat i in
        insertThousands fuel' i thousand
          (substring 0 n intStr ++ thousand
           ++ substring n (String.length intStr - n) intStr)%string
      else intStr
  end.

(** The second half of [FormatFloat]: rendering a number that is
    neither NaN nor infinite.  [None] is a panic (an index out of
    range). *)
Definition render (d : directives) (n : float64) : option string :=
  let small := ofRatio false 1 1000000000 in  (* 0.000000001 *)
  let '(signStr, n) :=
    if leb small n then (positiveStr d, n)
    else if leb n (neg small) then (negativeStr d, neg n)
    else ("", zero) in
  match nth_error renderFloatPrecisionRounders (Z.to_nat (precision d)),
        nth_error renderFloatPrecisionMultipliers (Z.to_nat (precision d)) with
  | Some rounder, Some multiplier =>
      if precision d <? 0 then None else
      let '(intf, fracf) := Modf (add n rounder) in
      let intStr := Go.Itoa (toInt64 intf) in
      let intStr :=
        if strlen (thousandStr d) >? 0 then
          insertThousands (String.length intStr) (strlen intStr)
                          (thousandStr d) intStr
        else intStr in
      if precision d =? 0 then Some (signStr ++ intStr)%string
      else
        let fracStr := Go.Itoa (toInt64 (mul fracf multiplier)) in
        let fracStr :=
          if strlen fracStr <? precision d then
            (substring 0 (Z.to_nat (precision d - strlen fracStr))
                       "000000000000000" ++ fracStr)%string
          else fracStr in
        Some (signStr ++ intStr ++ decimalStr d ++ fracStr)%string
  | _, _ => None
  end.

(** [humanize.FormatFloat(format, n)]. *)
Definition FormatFloat (format : string) (n : float64) : option string :=
  match n with
  | S754_nan => Some "NaN"
  | S754_infinity false => Some "Infinity"
  | S754_infinity true => Some "-Infinity"
  | _ =>
      match parseFormat format with
      | None => None
      | Some d => render d n
      end
  end.

End humanize.

(* ================================================================== *)
(** * Package [utils]: the environment                                 *)
(* ================================================================== *)

Module utils.

(** [utils.Environment], as far as the functions read it. *)
Record Environment := mkEnvironment {
  Timezone : time.Location;
  Now : time.Time
}.

(** Midnight in UTC of the civil date [t] shows in its own location. *)
Definition civilMidnight (t : time.Time) : time.Time :=
  time.Date (time.Year t) (time.Month t) (time.Day t) 0 0 0 0 time.UTC.

(** Modelled from the spec: [utils.DaysBetween] is not among the
    sources.  "D/W use civil-day counting (calendar days between,
    independent of time-of-day)": the whole days between the midnights of
    the two civil dates. *)
Definition DaysBetween (date1 date2 : time.Time) : Z :=
  Z.quot (time.Sub (civilMidnight date1) (civilMidnight date2)) (time.Hour * 24).

(** Modelled from the spec: [utils.MonthsBetween] is not among the
    sources.  "M/Y are calendar counts": the difference of the calendar
    months, twelve to a calendar year. *)
Definition MonthsBetween (date1 date2 : time.Time) : Z :=
  (time.Month date1 - time.Month date2)
  + (time.Year date1 - time.Year date2) * 12.

End utils.

(* ================================================================== *)
(** * Package [types]: Excellent values and their conversions          *)
(* ================================================================== *)

Module types.

(** The value variants.  [XError] carries the message of the Go error. *)
Inductive XValue : Type :=
| XNil
| XText (native : string)
| XNumber (native : decimal.Decimal)
| XBoolean (native : bool)
| XDateTime (native : time.Time)
| XArray (values : list XValue)
| XError (msg : string).

(** A Go result pair [(v, xerr)]: the value when [xerr == nil], the
    error's message otherwise. *)
Inductive result (A : Type) : Type :=
| Ok (v : A)
| Err (msg : string).
Arguments Ok {A} v.
Arguments Err {A} msg.

Definition NewXNumberFromInt (n : Z) : XValue := XNumber (decimal.New n 0).
Definition XTextEmpty : XValue := XText "".
Definition XBooleanTrue : bool := true.
Definition XBooleanFalse : bool := false.

(** ** text.go *)

(** [XText.Empty]. *)
Definition XText_Empty (native : string) : bool := String.eqb native "".

(** [XText.ToXBoolean]:
    [!x.Empty() && strings.ToLower(x.Native()) != "false"]. *)
Definition XText_ToXBoolean (native : string) : bool :=
  negb (XText_Empty native) && negb (String.eqb (Go.ToLower native) "false").

(** [XText.Equals]. *)
Definition XText_Equals (x other : string) : bool := String.eqb x other.

(** [types.IsXError]. *)
Definition IsXError (x : XValue) : bool :=
  match x with
  | XError _ => true
  | _ => false
  end.

(** Modelled from the spec: [types.IsEmpty] is not among the sources.
    [default] uses its fallback "when test is empty", and the function's
    documentation counts nil, empty text and the empty array as empty
    (the values with a length of zero). *)
Definition IsEmpty (x : XValue) : bool :=
  match x with
  | XNil => true
  | XText s => XText_Empty s
  | XArray [] => true
  | _ => false
  end.

(** Operations of the [types] and [utils] packages and of [fmt] that the
    functions call and whose code is not among the sources.  The
    development is parametric in them. *)
Class Support := {
  (** [x.Reduce().ToXText().Native()] of a number, boolean, datetime or
      array *)
  textOf : XValue -> string;
  (** [x.Reduce().ToXBoolean().Native()] of a number, datetime or array *)
  truthOf : XValue -> bool;
  (** [types.ToXNumber] on a value that is neither an error nor a number *)
  numberOf : XValue -> result decimal.Decimal;
  (** [types.ToXDateTime] on a value that is not an error, a datetime or
      a text *)
  datetimeOf : utils.Environment -> XValue -> result time.Time;
  (** [utils.DateFromString] *)
  DateFromString : utils.Environment -> string -> result time.Time;
  (** [utils.TokenizeString] *)
  TokenizeString : string -> list string;
  (** [fmt]'s rendering of a value under the verb [%d] *)
  formatD : XValue -> string
}.

Section Conversions.
Context `{Support}.

(** [types.ToXText] (text.go): nil is the empty text, an error is
    returned as the error, anything else is reduced and converted. *)
Definition ToXText (env : utils.Environment) (x : XValue) : result string :=
  match x with
  | XNil => Ok ""
  | XError e => Err e
  | XText s => Ok s
  | _ => Ok (textOf x)
  end.

(** Modelled from the spec: [types.ToXBoolean] follows [types.ToXText]:
    every primitive answers to-boolean, so the conversion fails on an
    error only; a text converts by [XText.ToXBoolean]. *)
Definition ToXBoolean (env : utils.Environment) (x : XValue) : result bool :=
  match x with
  | XNil => Ok XBooleanFalse
  | XError e => Err e
  | XText s => Ok (XText_ToXBoolean s)
  | XBoolean b => Ok b
  | _ => Ok (truthOf x)
  end.

(** Modelled from the spec: [types.ToXNumber]; an error is passed on
    and a number is itself. *)
Definition ToXNumber (env : utils.Environment) (x : XValue)
  : result decimal.Decimal :=
  match x with
  | XError e => Err e
  | XNumber d => Ok d
  | _ => numberOf x
  end.

(** Modelled from the spec: [types.ToInteger] converts to a number and
    takes its integer part as an [int]. *)
Definition ToInteger (env : utils.Environment) (x : XValue) : result Z :=
  match ToXNumber env x with
  | Err e => Err e
  | Ok d => Ok (decimal.IntPart d)
  end.

(** Modelled from the spec: [types.ToXDateTime]; an error is passed
    on, a datetime is itself and a text is parsed by
    [utils.DateFromString], as the function [datetime] does. *)
Definition ToXDateTime (env : utils.Environment) (x : XValue)
  : result time.Time :=
  match x with
  | XError e => Err e
  | XDateTime t => Ok t
  | XText s => DateFromString env s
  | _ => datetimeOf env x
  end.

End Conversions.

End types.

(* ================================================================== *)
(** * Package [functions]: the built-in functions                      *)
(* ================================================================== *)

Module functions.
Import types.

(** [v, xerr := e; if xerr != nil { return xerr }; k]. *)
Notation "'try' x <- e ; k" :=
  (match e with
   | Err xerr => XError xerr
   | Ok x => k
   end)
  (at level 10, x name, e at level 100, k at level 200, only parsing).

Section Functions.
Context `{Support}.

(** [Text]. *)
Definition Text (env : utils.Environment) (value : XValue) : XValue :=
  match ToXText env value with
  | Err xerr => XError xerr
  | Ok str => XText str
  end.

(** [Boolean]. *)
Definition Boolean (env : utils.Environment) (value : XValue) : XValue :=
  match ToXBoolean env value with
  | Err xerr => XError xerr
  | Ok b => XBoolean b
  end.

(** [Number]. *)
Definition Number (env : utils.Environment) (value : XValue) : XValue :=
  match ToXNumber env value with
  | Err xerr => XError xerr
  | Ok num => XNumber num
  end.

(** [If]: an error in [test] is returned; otherwise the branch chosen
    by the truth of [test]. *)
Definition If (env : utils.Environment) (test arg1 arg2 : XValue) : XValue :=
  match ToXBoolean env test with
  | Err err => XError err
  | Ok asBool => if asBool then arg1 else arg2
  end.

(** [Default]. *)
Definition Default (env : utils.Environment) (test def : XValue) : XValue :=
  if IsEmpty test || IsXError test then def else test.

(** [WordSlice].  The registry wraps it in [ArgCountCheck(2, 3, _)];
    indexing [args] out of range panics ([None]). *)
Definition WordSlice (env : utils.Environment) (args : list XValue)
  : option XValue :=
  match args with
  | a0 :: a1 :: rest =>
      Some (
        try str <- ToXText env a0 ;
        try start <- ToInteger env a1 ;
        if start <? 0 then XError "must start with a positive index" else
        try end_ <-
          (if Go.len args =? 3 then
             match rest with
             | a2 :: _ => ToInteger env a2
             | [] => Ok (-1)
             end
           else Ok (-1)) ;
        if (end_ >? 0) && (end_ <=? start) then
          XError "must have a end which is greater than the start"
        else
          let words := TokenizeString str in
          if start >=? Go.len words then XTextEmpty else
          let end_ := if end_ >=? Go.len words then Go.len words else end_ in
          if end_ >? 0 then XText (Go.Join (Go.slice words start end_) " ")
          else XText (Go.Join (Go.sliceFrom words start) " "))
  | _ => None
  end.

(** [DateTimeFromParts].  The registry wraps it in
    [ArgCountCheck(3, 3, _)]. *)
Definition DateTimeFromParts (env : utils.Environment) (args : list XValue)
  : option XValue :=
  match args with
  | a0 :: a1 :: a2 :: _ =>
      Some (
        try year <- ToInteger env a0 ;
        try month <- ToInteger env a1 ;
        if (month <? 1) || (month >? 12) then
          XError "invalid value for month, must be 1-12"
        else
          try day <- ToInteger env a2 ;
          XDateTime (time.Date year month day 0 0 0 0 (utils.Timezone env)))
  | _ => None
  end.

(** [DateTimeDiff]. *)
Definition DateTimeDiff (env : utils.Environment) (args : list XValue)
  : XValue :=
  match args with
  | [a0; a1; a2] =>
      try date1 <- ToXDateTime env a0 ;
      try date2 <- ToXDateTime env a1 ;
      try unit <- ToXText env a2 ;
      let duration := time.Sub date1 date2 in
      if String.eqb unit "s" then
        NewXNumberFromInt (Z.quot duration time.Second)
      else if String.eqb unit "m" then
        NewXNumberFromInt (Z.quot duration time.Minute)
      else if String.eqb unit "h" then
        NewXNumberFromInt (Z.quot duration time.Hour)
      else if String.eqb unit "D" then
        NewXNumberFromInt (utils.DaysBetween date1 date2)
      else if String.eqb unit "W" then
        NewXNumberFromInt (Z.quot (utils.DaysBetween date1 date2) 7)
      else if String.eqb unit "M" then
        NewXNumberFromInt (utils.MonthsBetween date1 date2)
      else if String.eqb unit "Y" then
        NewXNumberFromInt (time.Year date1 - time.Year date2)
      else
        XError ("unknown unit: " ++ unit
                ++ ", must be one of s, m, h, D, W, M, Y")
  | _ =>
      XError ("takes exactly three arguments, received "
              ++ Go.Itoa (Go.len args))
  end.

(** [for i := 0; i < places; i++ { formatStr.WriteString("#") }]. *)
Fixpoint writeHashes (places : nat) (formatStr : string) : string :=
  match places with
  | O => formatStr
  | S n => writeHashes n (formatStr ++ "#")
  end.

(** The format string [FormatNumber] builds. *)
Definition formatStr (commas : bool) (places : Z) : string :=
  let start := if commas then "#,###." else "####." in
  if places >? 0 then writeHashes (Z.to_nat places) start else start.

(** [FormatNumber].  [None] is a panic inside [humanize.FormatFloat]. *)
Definition FormatNumber (env : utils.Environment) (args : list XValue)
  : option XValue :=
  match args with
  | [] => Some (XError ("takes 1 to 3 arguments, got " ++ Go.Itoa (Go.len args)))
  | a0 :: rest =>
      if Go.len args >? 3 then
        Some (XError ("takes 1 to 3 arguments, got " ++ Go.Itoa (Go.len args)))
      else
        match ToXNumber env a0 with
        | Err err => Some (XError err)
        | Ok num =>
            let placesOrErr :=
              match rest with
              | a1 :: _ =>
                  match ToInteger env a1 with
                  | Err err => Err err
                  | Ok places =>
                      if (places <? 0) || (places >? 9) then
                        Err ("must take 0-9 number of places, got "
                             ++ formatD a1)
                      else Ok places
                  end
              | [] => Ok 2
              end in
            match placesOrErr with
            | Err err => Some (XError err)
            | Ok places =>
                let commasOrErr :=
                  match rest with
                  | _ :: a2 :: _ => ToXBoolean env a2
                  | _ => Ok XBooleanTrue
                  end in
                match commasOrErr with
                | Err err => Some (XError err)
                | Ok commas =>
                    let f64 := decimal.Float64 num in
                    match humanize.FormatFloat (formatStr commas places) f64 with
                    | Some text => Some (XText text)
                    | None => None
                    end
                end
            end
        end
  end.

End Functions.

End functions.

(* ================================================================== *)
(** * Package [expressions] (legacy): the migration variable mappers   *)
(* ================================================================== *)

Module expressions.

(** A Go [map[string]V] as an association list: a key is looked up at
    its first binding, and an assignment replaces the binding. *)
Definition gomap (V : Type) : Type := list (string * V).

Fixpoint mapGet {V} (m : gomap V) (key : string) : option V :=
  match m with
  | [] => None
  | (k, v) :: rest => if String.eqb k key then Some v else mapGet rest key
  end.

Definition mapSet {V} (m : gomap V) (key : string) (v : V) : gomap V :=
  (key, v) :: filter (fun kv => negb (String.eqb (fst kv) key)) m.

(** [ContextTopLevels]: the allowed top-level identifiers of legacy
    expressions. *)
Definition ContextTopLevels : list string :=
  ["channel"; "child"; "contact"; "date"; "extra"; "flow"; "parent"; "step"].

(** [ExtraVarsMapping]: how [@extra.*] is migrated. *)
Inductive ExtraVarsMapping : Type :=
| ExtraAsWebhookJSON
| ExtraAsTriggerParams
| ExtraAsFunction.

(** [extraMapper].  The embedded [varMapper] is never initialised nor
    read by its methods and is left out. *)
Record extraMapper := mkExtraMapper {
  path : string;
  extraAs : ExtraVarsMapping
}.

(** What a map of sub-items holds and what [Resolve] returns
    ([interface{}]): a string, a [*varMapper] or an [*extraMapper]. *)
Inductive item : Type :=
| IString (s : string)
| IVarMapper (m : varMapper)
| IExtraMapper (m : extraMapper)
with varMapper : Type :=
| mkVarMapper
    (substitutions : gomap string)
    (base : string)
    (baseVars : gomap item)
    (arbitraryNesting : string)
    (arbitraryVars : option (gomap item)).

Definition substitutions (v : varMapper) : gomap string :=
  let '(mkVarMapper x _ _ _ _) := v in x.
Definition base (v : varMapper) : string :=
  let '(mkVarMapper _ x _ _ _) := v in x.
Definition baseVars (v : varMapper) : gomap item :=
  let '(mkVarMapper _ _ x _ _) := v in x.
Definition arbitraryNesting (v : varMapper) : string :=
  let '(mkVarMapper _ _ _ x _) := v in x.
(** [None] is a nil map. *)
Definition arbitraryVars (v : varMapper) : option (gomap item) :=
  let '(mkVarMapper _ _ _ _ x) := v in x.

Definition nonEmpty (s : string) : bool := negb (String.eqb s "").

(** The double quote of the string literals in replacement expressions. *)
Definition quote : string := String (ascii_of_N 34) "".

(** [varMapper.rebase]. *)
Definition rebase (v : varMapper) (prefix : string) : varMapper :=
  let newBase :=
    if nonEmpty prefix then prefix ++ "." ++ base v else base v in
  mkVarMapper (substitutions v) newBase (baseVars v) (arbitraryNesting v)
              (arbitraryVars v).

(** [varMapper.Resolve]. *)
Definition varMapper_Resolve (v : varMapper) (key : string) : item :=
  let key := Go.ToLower key in
  match mapGet (substitutions v) key with
  | Some substitute => IString substitute
  | None =>
      let newPath := if nonEmpty (base v) then [base v] else [] in
      match mapGet (baseVars v) key with
      | Some (IVarMapper asVarMapper) =>
          if Go.len newPath >? 0 then
            IVarMapper (rebase asVarMapper (Go.Join newPath "."))
          else IVarMapper asVarMapper
      | Some (IExtraMapper asExtraMapper) => IExtraMapper asExtraMapper
      | Some (IString value) => IString (Go.Join (newPath ++ [value])%list ".")
      | None =>
          let newPath :=
            if nonEmpty (arbitraryNesting v)
            then (newPath ++ [arbitraryNesting v])%list else newPath in
          let newPath := (newPath ++ [key])%list in
          match arbitraryVars v with
          | Some vars =>
              IVarMapper (mkVarMapper [] (Go.Join newPath ".") vars "" None)
          | None => IString (Go.Join newPath ".")
          end
      end
  end.

(** [varMapper.String]. *)
Definition varMapper_String (v : varMapper) : string :=
  match mapGet (substitutions v) "__default__" with
  | Some sub => sub
  | None => base v
  end.

(** [extraMapper.Resolve]. *)
Definition extraMapper_Resolve (m : extraMapper) (key : string) : item :=
  let newPath := if nonEmpty (path m) then [path m] else [] in
  let newPath := (newPath ++ [key])%list in
  if String.eqb (path m) "" && String.eqb key "flow" then
    IVarMapper
      (mkVarMapper [] "parent.results" [] ""
         (Some [("category", IString "category_localized");
                ("text", IString "input");
                ("time", IString "created_on")]))
  else IExtraMapper (mkExtraMapper (Go.Join newPath ".") (extraAs m)).

(** [extraMapper.String]. *)
Definition extraMapper_String (m : extraMapper) : string :=
  match extraAs m with
  | ExtraAsWebhookJSON => "run.webhook.json." ++ path m
  | ExtraAsTriggerParams => "trigger.params." ++ path m
  | ExtraAsFunction =>
      "if(is_error(run.webhook.json." ++ path m ++ "), trigger.params."
      ++ path m ++ ", run.webhook.json." ++ path m ++ ")"
  end.

(** The mapper of one URN scheme under [contact]. *)
Definition schemeMapper (scheme : string) : varMapper :=
  mkVarMapper
    [("__default__", "format_urn(contact.urns." ++ scheme ++ ")");
     ("display", "format_urn(contact.urns." ++ scheme ++ ")");
     ("scheme", "contact.urns." ++ scheme ++ ".0.scheme");
     ("path", "contact.urns." ++ scheme ++ ".0.path");
     ("urn", "contact.urns." ++ scheme ++ ".0")]
    ("urns." ++ scheme) [] "" None.

(** The mapper [contact] that [newMigrationBaseVars] builds first, with a
    sub-mapper for each scheme of [urns.ValidSchemes]. *)
Definition contactMapper (validSchemes : list string) : varMapper :=
  let contactVars :=
    fold_left (fun vars scheme => mapSet vars scheme (IVarMapper (schemeMapper scheme)))
      validSchemes
      [("uuid", IString "uuid");
       ("id", IString "id");
       ("name", IString "name");
       ("first_name", IString "first_name");
       ("language", IString "language");
       ("tel_e164", IString "urns.tel.0.path")] in
  mkVarMapper [("groups", "join(contact.groups, " ++ quote ++ "," ++ quote ++ ")")]
              "contact" contactVars "fields" None.

(** [newMigrationBaseVars]. *)
Definition newMigrationBaseVars (validSchemes : list string) : gomap item :=
  let contact := contactMapper validSchemes in
  [("contact", IVarMapper contact);
   ("flow",
    IVarMapper
      (mkVarMapper [] "" [("contact", IVarMapper contact)] "run.results"
         (Some [("category", IString "category_localized");
                ("text", IString "input");
                ("time", IString "created_on")])));
   ("parent",
    IVarMapper
      (mkVarMapper [] "parent" [("contact", IVarMapper contact)] "results"
         (Some [("category", IString "category_localized")])));
   ("child",
    IVarMapper
      (mkVarMapper [] "child" [("contact", IVarMapper contact)] "results"
         (Some [("category", IString "category_localized")])));
   ("step",
    IVarMapper
      (mkVarMapper
         [("__default__", "run.input");
          ("value", "run.input");
          ("text", "run.input.text");
          ("attachments", "run.input.attachments");
          ("time", "run.input.created_on")]
         "" [("contact", IVarMapper contact)] "" None));
   ("channel",
    IVarMapper
      (mkVarMapper
         [("__default__", "contact.channel.address");
          ("name", "contact.channel.name");
          ("tel", "contact.channel.address");
          ("tel_e164", "contact.channel.address")]
         "" [] "" None));
   ("date",
    IVarMapper
      (mkVarMapper
         [("__default__", "now()");
          ("now", "now()");
          ("today", "today()");
          ("tomorrow", "datetime_add(today(), 1, " ++ quote ++ "D" ++ quote ++ ")");
          ("yesterday", "datetime_add(today(), -1, " ++ quote ++ "D" ++ quote ++ ")")]
         "" [] "" None))].

(** [newMigrationVarMapper]: the base variables copied, with a mapper
    for [extra] added. *)
Definition newMigrationVarMapper (validSchemes : list string)
    (extraAs : ExtraVarsMapping) : varMapper :=
  let baseVars :=
    fold_left (fun m kv => mapSet m (fst kv) (snd kv))
              (newMigrationBaseVars validSchemes) [] in
  let baseVars := mapSet baseVars "extra" (IExtraMapper (mkExtraMapper "" extraAs)) in
  mkVarMapper [] "" baseVars "" None.

(** The [Resolvable] interface: [Resolve] on whatever a lookup
    returned.  A string is not resolvable ([None]). *)
Definition Resolve (r : item) (key : string) : option item :=
  match r with
  | IString _ => None
  | IVarMapper m => Some (varMapper_Resolve m key)
  | IExtraMapper m => Some (extraMapper_Resolve m key)
  end.

(** [String()] of a resolvable, a string being itself. *)
Definition toString (r : item) : string :=
  match r with
  | IString s => s
  | IVarMapper m => varMapper_String m
  | IExtraMapper m => extraMapper_String m
  end.

(** Modelled from the spec: the lookup of a dotted reference is not
    among the sources.  "Member access calls resolve repeatedly": each
    segment of the path is resolved against the result of the one
    before. *)
Fixpoint resolvePath (r : item) (keys : list string) : option item :=
  match keys with
  | [] => Some r
  | key :: rest =>
      match Resolve r key with
      | Some r' => resolvePath r' rest
      | None => None
      end
  end.

(** Modelled from the spec: the rewriting of one legacy reference
    [@k1.k2...kn] is the text the mappers yield for its path, "yielding a
    rewritten expression string rather than a Value". *)
Definition migrateReference (mapper : varMapper) (keys : list string)
  : option string :=
  option_map toString (resolvePath (IVarMapper mapper) keys).

(** ** The template scanner, for bare references *)

Definition isWordChar (c : ascii) : bool :=
  let n := N_of_ascii c in
  (((48 <=? n) && (n <=? 57)) || ((65 <=? n) && (n <=? 90))
   || ((97 <=? n) && (n <=? 122)) || (n =? 95))%N.

(** The segments of a dotted path. *)
Fixpoint splitDots (s : string) (cur : string) : list string :=
  match s with
  | EmptyString => [cur]
  | String c rest =>
      if Ascii.eqb c "." then cur :: splitDots rest ""
      else splitDots rest (cur ++ String c "")
  end.

(** Whether an expression is itself a bare reference: word characters
    and dots only. *)
Fixpoint isBare (expression : string) : bool :=
  match expression with
  | EmptyString => true
  | String c rest => (isWordChar c || Ascii.eqb c ".") && isBare rest
  end.

(** Modelled from the spec: a recognised reference is replaced by the
    sigil and its rewriting; "unrecognized top-level identifiers (outside
    a closed set) are left as literal text".  How a rewriting that is not
    itself a bare reference is written back into the template is not
    described, nor what a path running through a plain string becomes:
    both are outside this model ([None]). *)
Definition migrateIdentifier (mapper : varMapper) (ident : string)
  : option string :=
  let keys := splitDots ident "" in
  let topLevel := Go.ToLower (hd "" keys) in
  if existsb (String.eqb topLevel) ContextTopLevels then
    match migrateReference mapper keys with
    | Some expression =>
        if isBare expression then Some ("@" ++ expression) else None
    | None => None
    end
  else Some ("@" ++ ident).

(** Where the scanner is: in literal text, or inside a bare reference
    (the identifier read so far, and whether a dot is waiting for the
    next segment). *)
Inductive scanState : Type :=
| InText
| InReference (ident : string) (dot : bool).

(** Modelled from the spec: the template scanner is not among the
    sources.  "A template is a sequence of literal runs and expressions.
    An expression begins with the sigil [@]"; the bare form is
    "[@identifier(.identifier|.integer)*] (greedy over word characters
    and dots, stopping at a non-word char)".  An escaped sigil [@@] is
    kept.  The parenthesized form [@(expr)] needs the expression grammar
    and is outside this model ([None]). *)
Fixpoint scanTemplate (mapper : varMapper) (template : string)
    (out : string) (st : scanState) : option string :=
  match template with
  | EmptyString =>
      match st with
      | InText => Some out
      | InReference ident dot =>
          if nonEmpty ident then
            match migrateIdentifier mapper ident with
            | Some rewritten => Some (out ++ rewritten ++ (if dot then "." else ""))
            | None => None
            end
          else Some (out ++ "@")
      end
  | String c rest =>
      match st with
      | InText =>
          if Ascii.eqb c "@" then scanTemplate mapper rest out (InReference "" false)
          else scanTemplate mapper rest (out ++ String c "") InText
      | InReference ident dot =>
          if isWordChar c then
            scanTemplate mapper rest out
              (InReference (ident ++ (if dot then "." else "") ++ String c "") false)
          else if Ascii.eqb c "." && nonEmpty ident && negb dot then
            scanTemplate mapper rest out (InReference ident true)
          else if nonEmpty ident then
            match migrateIdentifier mapper ident with
            | Some rewritten =>
                let out := out ++ rewritten ++ (if dot then "." else "") in
                if Ascii.eqb c "@" then
                  scanTemplate mapper rest out (InReference "" false)
                else scanTemplate mapper rest (out ++ String c "") InText
            | None => None
            end
          else if Ascii.eqb c "@" then scanTemplate mapper rest (out ++ "@@") InText
          else if Ascii.eqb c "(" then None
          else scanTemplate mapper rest (out ++ "@" ++ String c "") InText
      end
  end.

(** The migration of a legacy template under the [@extra] mode of its
    flow. *)
Definition MigrateTemplate (validSchemes : list string) (template : string)
    (extraAs : ExtraVarsMapping) : option string :=
  scanTemplate (newMigrationVarMapper validSchemes extraAs) template "" InText.

End expressions.

(* ================================================================== *)
(** * Package [flows]: runs, events and the event log                  *)
(* ================================================================== *)

Module flows.

Record ChannelReference := mkChannelReference {
  ChannelUUID : string;
  ChannelName : string
}.

Record LabelReference := mkLabelReference {
  LabelUUID : string;
  LabelName : string
}.

(** The contact of a run: its preferred channel among other state. *)
Record Contact := mkContact {
  ContactUUID : string;
  ContactName : string;
  ContactChannel : option ChannelReference
}.

Inductive RunStatus : Type := StatusActive | StatusWaiting | StatusCompleted | StatusErrored.

(** The state of a run as actions can reach it through [flows.FlowRun];
    [RunContact] is [None] in a session without a contact. *)
Record FlowRun := mkFlowRun {
  RunUUID : string;
  RunContact : option Contact;
  RunStatus_ : RunStatus;
  RunResults : list (string * string)
}.

Record Step := mkStep { StepUUID : string; NodeUUID : string }.

End flows.

Module events.

(** The events of the sources, each on a [baseEvent] holding the time it
    was created on. *)
Inductive Event : Type :=
| NothingWaitEvent (createdOn : time.Time)
| MsgWaitEvent (createdOn : time.Time) (timeout : Z)
| InputLabelsAddedEvent (createdOn : time.Time) (inputUUID : string)
    (labels : list flows.LabelReference)
| ContactChannelChangedEvent (createdOn : time.Time)
    (channel : option flows.ChannelReference)
| FatalErrorEvent (createdOn : time.Time) (text : string)
| WaitTimedOutEvent (createdOn : time.Time).

Definition TypeNothingWait : string := "nothing_wait".
Definition TypeMsgWait : string := "msg_wait".
Definition TypeInputLabelsAdded : string := "input_labels_added".
Definition TypeContactChannelChanged : string := "contact_channel_changed".
Definition TypeFatalError : string := "fatal_error".
Definition TypeWaitTimedOut : string := "wait_timed_out".

(** [Event.Type]. *)
Definition Type_ (e : Event) : string :=
  match e with
  | NothingWaitEvent _ => TypeNothingWait
  | MsgWaitEvent _ _ => TypeMsgWait
  | InputLabelsAddedEvent _ _ _ => TypeInputLabelsAdded
  | ContactChannelChangedEvent _ _ => TypeContactChannelChanged
  | FatalErrorEvent _ _ => TypeFatalError
  | WaitTimedOutEvent _ => TypeWaitTimedOut
  end.

(** [Apply] of the events whose code is among the sources
    ([nothing_wait], [msg_wait], [input_labels_added]): the run is left
    as it is and no error is returned. *)
Definition Apply (e : Event) (run : flows.FlowRun) : option flows.FlowRun :=
  match e with
  | NothingWaitEvent _ => Some run
  | MsgWaitEvent _ _ => Some run
  | InputLabelsAddedEvent _ _ _ => Some run
  | _ => None
  end.

End events.

(* ================================================================== *)
(** * Package [waits]: waits that can time out                         *)
(* ================================================================== *)

Module waits.

(** [baseTimeoutWait]: [nil] pointers are [None]. *)
Record baseTimeoutWait := mkBaseTimeoutWait {
  Timeout_ : option Z;
  TimeoutOn_ : option time.Time
}.

(** [baseWait.Timeout], [baseWait.TimeoutOn] and [baseWait.Begin]. *)
Definition baseWait_Timeout : option Z := None.
Definition baseWait_TimeoutOn : option time.Time := None.
Definition baseWait_Begin (run : flows.FlowRun) : unit := tt.

Definition Timeout (w : baseTimeoutWait) : option Z := Timeout_ w.
Definition TimeoutOn (w : baseTimeoutWait) : option time.Time := TimeoutOn_ w.

(** [baseTimeoutWait.Begin], with [now] the reading of [time.Now()].
    The duration [time.Second * time.Duration(timeout)] is a 64-bit
    product. *)
Definition Begin (now : time.Time) (w : baseTimeoutWait) (run : flows.FlowRun)
  : baseTimeoutWait :=
  match Timeout_ w with
  | Some timeout =>
      let timeoutOn :=
        time.Add (time.toUTC now) (Go.wrap64 (time.Second * Go.wrap64 timeout)) in
      let '_ := baseWait_Begin run in
      mkBaseTimeoutWait (Timeout_ w) (Some timeoutOn)
  | None =>
      let '_ := baseWait_Begin run in
      w
  end.

(** [containsEventOfType]. *)
Fixpoint containsEventOfType (evts : list events.Event) (eventType : string)
  : bool :=
  match evts with
  | [] => false
  | event :: rest =>
      if String.eqb (events.Type_ event) eventType then true
      else containsEventOfType rest eventType
  end.

(** [baseTimeoutWait.CanResume]. *)
Definition CanResume (w : baseTimeoutWait) (callerEvents : list events.Event)
  : bool :=
  containsEventOfType callerEvents events.TypeWaitTimedOut.

End waits.

(* ================================================================== *)
(** * Package [actions]: executing an action                           *)
(* ================================================================== *)

Module actions.

(** What executing an action can touch: the run (with its contact), the
    event log and the clock events are stamped with. *)
Record World := mkWorld {
  run : flows.FlowRun;
  log : list events.Event;
  clock : time.Time
}.

(** Computations over the world. *)
Definition M (A : Type) : Type := World -> A * World.

Definition ret {A} (a : A) : M A := fun w => (a, w).
Definition bind {A B} (m : M A) (k : A -> M B) : M B :=
  fun w => let '(a, w') := m w in k a w'.

Notation "x <- m ;; k" := (bind m (fun x => k))
  (at level 61, m at next level, right associativity).
Notation "m ;;; k" := (bind m (fun _ => k))
  (at level 61, right associativity).

(** [run.Contact()]. *)
Definition runContact : M (option flows.Contact) :=
  fun w => (flows.RunContact (run w), w).

(** [run.SetContact(c)]: what an action would call to change the
    contact itself. *)
Definition runSetContact (c : option flows.Contact) : M unit :=
  fun w =>
    let r := run w in
    (tt, mkWorld (flows.mkFlowRun (flows.RunUUID r) c (flows.RunStatus_ r)
                                  (flows.RunResults r))
                 (log w) (clock w)).

(** [log.Add(event)]. *)
Definition logAdd (event : events.Event) : M unit :=
  fun w => (tt, mkWorld (run w) (log w ++ [event])%list (clock w)).

(** [newBaseEvent()] stamps an event with the current time in UTC. *)
Definition newBaseEvent : M time.Time :=
  fun w => (time.toUTC (clock w), w).

Definition NewFatalErrorEvent (err : string) : M events.Event :=
  createdOn <- newBaseEvent ;; ret (events.FatalErrorEvent createdOn err).

Definition NewContactChannelChangedEvent (channel : option flows.ChannelReference)
  : M events.Event :=
  createdOn <- newBaseEvent ;; ret (events.ContactChannelChangedEvent createdOn channel).

(** [SetContactChannelAction]; [Channel] is a pointer. *)
Record SetContactChannelAction := mkSetContactChannelAction {
  ActionUUID : string;
  Channel : option flows.ChannelReference
}.

Definition TypeSetContactChannel : string := "set_contact_channel".

(** [SetContactChannelAction.Execute]; the result is the returned
    [error] ([None] for [nil]). *)
Definition SetContactChannelAction_Execute (a : SetContactChannelAction)
    (step : flows.Step) : M (option string) :=
  contact <- runContact ;;
  match contact with
  | None =>
      event <- NewFatalErrorEvent "can't execute action in session without a contact" ;;
      logAdd event ;;;
      ret None
  | Some _ =>
      event <- NewContactChannelChangedEvent (Channel a) ;;
      logAdd event ;;;
      ret None
  end.

(** The actions of the sources. *)
Inductive Action : Type :=
| SetContactChannel (a : SetContactChannelAction).

(** [Action.Type]. *)
Definition Type_ (a : Action) : string :=
  match a with
  | SetContactChannel _ => TypeSetContactChannel
  end.

(** [Action.Execute(run, step, log)]. *)
Definition Execute (a : Action) (step : flows.Step) : M (option string) :=
  match a with
  | SetContactChannel a => SetContactChannelAction_Execute a step
  end.

End actions.

(* ================================================================== *)
(** * An instance of [Support] to run the functions on                 *)
(* ================================================================== *)

Module sample.
Import types.

Definition isDigit (c : ascii) : bool :=
  let n := N_of_ascii c in ((48 <=? n) && (n <=? 57))%N.

Definition isWordByte (c : ascii) : bool :=
  let n := N_of_ascii c in
  (isDigit c || ((65 <=? n) && (n <=? 90)) || ((97 <=? n) && (n <=? 122))
   || (n =? 95) || (n =? 39))%N.

(** Words of an ASCII text: the maximal runs of letters, digits, ['_']
    and the apostrophe. *)
Fixpoint words (s : string) (cur : string) : list string :=
  match s with
  | EmptyString => if String.eqb cur "" then [] else [cur]
  | String c rest =>
      if isWordByte c then words rest (cur ++ String c "")
      else if String.eqb cur "" then words rest ""
      else cur :: words rest ""
  end.

Definition digitValue (c : ascii) : Z := Z.of_N (N_of_ascii c) - 48.

(** Dates written [YYYY-MM-DD]: midnight of that day in the timezone of
    the environment. *)
Definition isoDate (env : utils.Environment) (s : string) : result time.Time :=
  match s with
  | String y1 (String y2 (String y3 (String y4 (String "-"
      (String m1 (String m2 (String "-" (String d1 (String d2 "")))))))))
    =>
      if forallb isDigit [y1; y2; y3; y4; m1; m2; d1; d2] then
        Ok (time.Date
              (digitValue y1 * 1000 + digitValue y2 * 100
               + digitValue y3 * 10 + digitValue y4)
              (digitValue m1 * 10 + digitValue m2)
              (digitValue d1 * 10 + digitValue d2)
              0 0 0 0 (utils.Timezone env))
      else Err "unable to parse date"
  | _ => Err "unable to parse date"
  end.

#[export] Instance support : Support := {|
  textOf := fun _ => "";
  truthOf := fun _ => true;
  numberOf := fun _ => Err "unable to convert to a number";
  datetimeOf := fun _ _ => Err "unable to convert to a datetime";
  DateFromString := isoDate;
  TokenizeString := fun s => words s "";
  formatD := fun _ => ""
|}.

Definition guayaquil : time.Location := time.mkLocation "America/Guayaquil" (-18000).

Definition env : utils.Environment :=
  utils.mkEnvironment guayaquil (time.Date 2018 4 11 13 24 30 123456000 guayaquil).

End sample.

(* ================================================================== *)
(** * Properties                                                       *)
(* ================================================================== *)

Import types functions.

(** ** Text to boolean ([XText.ToXBoolean]) *)

Definition isLetter (lower upper c : ascii) : bool :=
  Ascii.eqb c lower || Ascii.eqb c upper.

(** A text that reads [false] when the case of its letters is ignored. *)
Definition isFalseIgnoringCase (s : string) : bool :=
  match s with
  | String c1 (String c2 (String c3 (String c4 (String c5 EmptyString)))) =>
      isLetter "f" "F" c1 && isLetter "a" "A" c2 && isLetter "l" "L" c3
      && isLetter "s" "S" c4 && isLetter "e" "E" c5
  | _ => false
  end.

(** A non-empty text of blanks (spaces, tabs, line breaks). *)
Fixpoint allBlank (s : string) : bool :=
  match s with
  | EmptyString => true
  | String c rest =>
      (Ascii.eqb c " " || Ascii.eqb c (ascii_of_N 9) || Ascii.eqb c (ascii_of_N 10)
       || Ascii.eqb c (ascii_of_N 13)) && allBlank rest
  end.

Lemma lowerByte_f c : Ascii.eqb (Go.lowerByte c) "f" = isLetter "f" "F" c.
Proof. destruct c as [[] [] [] [] [] [] [] []]; reflexivity. Qed.

Lemma lowerByte_a c : Ascii.eqb (Go.lowerByte c) "a" = isLetter "a" "A" c.
Proof. destruct c as [[] [] [] [] [] [] [] []]; reflexivity. Qed.

Lemma lowerByte_l c : Ascii.eqb (Go.lowerByte c) "l" = isLetter "l" "L" c.
Proof. destruct c as [[] [] [] [] [] [] [] []]; reflexivity. Qed.

Lemma lowerByte_s c : Ascii.eqb (Go.lowerByte c) "s" = isLetter "s" "S" c.
Proof. destruct c as [[] [] [] [] [] [] [] []]; reflexivity. Qed.

Lemma lowerByte_e c : Ascii.eqb (Go.lowerByte c) "e" = isLetter "e" "E" c.
Proof. destruct c as [[] [] [] [] [] [] [] []]; reflexivity. Qed.

Lemma ToLower_is_false (s : string) :
  String.eqb (Go.ToLower s) "false" = isFalseIgnoringCase s.
Proof.
  destruct s as [|c1 [|c2 [|c3 [|c4 [|c5 [|c6 s]]]]]];
    cbn [Go.ToLower String.eqb isFalseIgnoringCase];
    rewrite ?lowerByte_f, ?lowerByte_a, ?lowerByte_l, ?lowerByte_s, ?lowerByte_e;
    repeat match goal with
           | |- context [isLetter ?lo ?up ?c] => destruct (isLetter lo up c)
           end;
    reflexivity.
Qed.

Lemma allBlank_not_false (s : string) :
  allBlank s = true -> isFalseIgnoringCase s = false.
Proof.
  destruct s as [|c1 s]; [reflexivity|].
  cbn [allBlank]. intros Hb. apply andb_true_iff in Hb as [Hc _].
  destruct s as [|c2 [|c3 [|c4 [|c5 [|c6 s]]]]]; try reflexivity.
  cbn [isFalseIgnoringCase].
  destruct c1 as [[] [] [] [] [] [] [] []]; try discriminate Hc; reflexivity.
Qed.

(** C10.  A text converts to the boolean false exactly when it is empty
    or reads [false] when case is ignored; every other text converts to
    true, among them ["0"] and the texts made of blanks only. *)
Theorem text_to_boolean_false_iff :
  (forall native : string,
     XText_ToXBoolean native = false
     <-> (native = "" \/ isFalseIgnoringCase native = true))
  /\ (forall native : string,
        native <> "" -> isFalseIgnoringCase native = false ->
        XText_ToXBoolean native = true)
  /\ XText_ToXBoolean "0" = true
  /\ (forall native : string,
        native <> "" -> allBlank native = true -> XText_ToXBoolean native = true)
  /\ (forall (S : Support) env native,
        ToXBoolean env (XText native) = Ok (XText_ToXBoolean native)).
Proof.
  assert (Hiff : forall native : string,
             XText_ToXBoolean native = false
             <-> (native = "" \/ isFalseIgnoringCase native = true)).
  { intros native. unfold XText_ToXBoolean, XText_Empty.
    rewrite ToLower_is_false.
    destruct (String.eqb_spec native "") as [He | Hne].
    - subst. cbn. split; auto.
    - cbn. destruct (isFalseIgnoringCase native); cbn; intuition congruence. }
  assert (Htrue : forall native : string,
             native <> "" -> isFalseIgnoringCase native = false ->
             XText_ToXBoolean native = true).
  { intros native Hne Hf.
    destruct (XText_ToXBoolean native) eqn:Hb; [reflexivity|].
    apply Hiff in Hb as [Hb | Hb]; [contradiction | congruence]. }
  split; [exact Hiff|].
  split; [exact Htrue|].
  split; [reflexivity|].
  split; [|reflexivity].
  intros native Hne Hb. apply Htrue; [exact Hne | now apply allBlank_not_false].
Qed.

(** ** [default] and [if] *)

(** The values [default] replaces: nil, the empty text, the empty array
    and errors. *)
Definition emptyOrError (x : XValue) : Prop :=
  x = XNil \/ x = XText "" \/ x = XArray [] \/ exists msg, x = XError msg.

Lemma emptyOrError_spec (x : XValue) :
  IsEmpty x || IsXError x = true <-> emptyOrError x.
Proof.
  unfold emptyOrError. split.
  - destruct x as [| s | d | b | t | vs | msg]; cbn; intros Hx;
      try discriminate; auto.
    + unfold XText_Empty in Hx. rewrite orb_false_r in Hx.
      apply String.eqb_eq in Hx. subst. auto.
    + destruct vs; [auto | discriminate].
    + right. right. right. now exists msg.
  - intros [-> | [-> | [-> | [msg ->]]]]; reflexivity.
Qed.

(** C5.  [default(test, fallback)] is the fallback exactly when [test] is
    an empty value (nil, the empty text, the empty array) or an error, and
    is [test] itself otherwise. *)
Theorem default_fallback_iff_empty_or_error :
  forall (env : utils.Environment) (test fallback : XValue),
    (emptyOrError test -> Default env test fallback = fallback)
    /\ (~ emptyOrError test -> Default env test fallback = test)
    /\ (Default env test fallback = fallback
        <-> (emptyOrError test \/ test = fallback)).
Proof.
  intros env test fallback. unfold Default.
  pose proof (emptyOrError_spec test) as Hspec.
  destruct (IsEmpty test || IsXError test) eqn:Hb.
  - assert (He : emptyOrError test) by now apply Hspec.
    repeat split; auto. intros Hn. contradiction.
  - assert (Hn : ~ emptyOrError test).
    { intros He. apply Hspec in He. discriminate. }
    repeat split; auto.
    + intros He. contradiction.
    + intros [He | He]; [contradiction | exact He].
Qed.



(** ** [word_slice] *)

Lemma skipn_beyond {A} (n : nat) (xs : list A) :
  (List.length xs <= n)%nat -> skipn n xs = [].
Proof. intros Hn. now apply skipn_all2. Qed.

Lemma firstn_beyond {A} (n : nat) (xs : list A) :
  (List.length xs <= n)%nat -> firstn n xs = xs.
Proof. intros Hn. now apply firstn_all2. Qed.

(** The words with an index [i], [lo <= i < hi]. *)
Definition wordsBetween (words : list string) (lo hi : Z) : list string :=
  firstn (Z.to_nat (hi - lo)) (skipn (Z.to_nat lo) words).

(** The words with an index [i], [lo <= i]. *)
Definition wordsFrom (words : list string) (lo : Z) : list string :=
  skipn (Z.to_nat lo) words.

Lemma wordsBetween_nth (words : list string) (lo hi : Z) (i : nat) :
  0 <= lo -> (Z.of_nat i < hi - lo) ->
  nth_error (wordsBetween words lo hi) i = nth_error words (Z.to_nat lo + i).
Proof.
  intros Hlo Hi. unfold wordsBetween.
  rewrite nth_error_firstn.
  destruct (Nat.ltb_spec i (Z.to_nat (hi - lo))) as [Hlt | Hge]; [|lia].
  now rewrite nth_error_skipn.
Qed.

Lemma WordSlice_open_end (S : Support) env a0 a1 rest text start end_ :
  ToXText env a0 = Ok text ->
  ToInteger env a1 = Ok start ->
  0 <= start ->
  (if Go.len (a0 :: a1 :: rest) =? 3 then
     match rest with
     | a2 :: _ => ToInteger env a2
     | [] => Ok (-1)
     end
   else Ok (-1)) = Ok end_ ->
  end_ < 0 ->
  WordSlice env (a0 :: a1 :: rest)
  = Some (XText (Go.Join (wordsFrom (TokenizeString text) start) " ")).
Proof.
  intros Ht Hs Hpos He Hneg. unfold WordSlice. rewrite Ht, Hs, He.
  destruct (Z.ltb_spec start 0) as [|_]; [lia|].
  destruct (Z.gtb_spec end_ 0) as [|_]; [lia|]. cbn [andb].
  unfold wordsFrom, Go.sliceFrom, Go.len.
  destruct (Z.geb_spec start (Z.of_nat (List.length (TokenizeString text)))) as [Hge | Hlt].
  - rewrite skipn_beyond by lia. reflexivity.
  - destruct (Z.geb_spec end_ (Z.of_nat (List.length (TokenizeString text)))) as [|_]; [lia|].
    destruct (Z.gtb_spec end_ 0) as [|_]; [lia|]. reflexivity.
Qed.



(** ** Dates: [datetime_from_parts] and [datetime_diff] *)

(** The wall clock of a date built by [time.Date] does not depend on the
    location it was built in. *)
Lemma abs_Date (year month day hour min sec nsec : Z) (l : time.Location) :
  time.abs (time.Date year month day hour min sec nsec l)
  = time.abs (time.Date year month day hour min sec nsec time.UTC).
Proof.
  unfold time.Date.
  destruct (time.norm year (month - 1) 12) as [y m].
  destruct (time.norm sec nsec 1000000000) as [s ns].
  destruct (time.norm min s 60) as [mi s'].
  destruct (time.norm hour mi 60) as [h mi'].
  destruct (time.norm day h 24) as [d h'].
  unfold time.abs. cbn [time.unixSec time.loc time.zoneOffset time.UTC]. lia.
Qed.

Lemma civil_Date (year month day : Z) (l : time.Location) :
  time.Year (time.Date year month day 0 0 0 0 l)
  = time.Year (time.Date year month day 0 0 0 0 time.UTC)
  /\ time.Month (time.Date year month day 0 0 0 0 l)
     = time.Month (time.Date year month day 0 0 0 0 time.UTC)
  /\ time.Day (time.Date year month day 0 0 0 0 l)
     = time.Day (time.Date year month day 0 0 0 0 time.UTC)
  /\ time.Clock (time.Date year month day 0 0 0 0 l)
     = time.Clock (time.Date year month day 0 0 0 0 time.UTC).
Proof.
  unfold time.Year, time.Month, time.Day, time.Clock.
  rewrite (abs_Date year month day 0 0 0 0 l). repeat split.
Qed.

(** Day [day] of a month is [day - 1] days after the first of the month,
    whatever [day] is. *)
Lemma Date_day_overflow (year month day : Z) (l : time.Location) :
  time.instant (time.Date year month day 0 0 0 0 l)
  = time.instant (time.Date year month 1 0 0 0 0 l)
    + (day - 1) * 24 * time.Hour.
Proof.
  unfold time.Date, time.instant.
  destruct (time.norm year (month - 1) 12) as [y m].
  change (time.norm 0 0 1000000000) with (0, 0). cbn iota beta.
  change (time.norm 0 0 60) with (0, 0). cbn iota beta.
  change (time.norm 0 0 60) with (0, 0). cbn iota beta.
  assert (Hn : forall d, time.norm d 0 24 = (d, 0)) by reflexivity.
  rewrite !Hn. cbn [time.unixSec time.nsec].
  unfold time.secondsPerDay, time.Hour, time.Minute, time.Second. lia.
Qed.



(** *** The calendar of [time]: [absDate] inverts [Date] *)

(** The day count [time.Date] computes for a civil date with a month in
    1..12 (days since the absolute epoch). *)
Definition daysOfCivil (year month day : Z) : Z :=
  time.daysSinceEpoch year + time.daysBeforeAt (month - 1)
  + (if time.isLeap year && (month >=? 3) then 1 else 0) + (day - 1).

(** The day of the wall clock of [t], counted from the absolute epoch. *)
Definition civilDay (t : time.Time) : Z := time.abs t / time.secondsPerDay.

(** The end of [absDate]: month and day of the day [yday] of a year
    (from 0), leap or not. *)
Definition monthDay (leap : bool) (yday : Z) : Z * Z :=
  if leap && (yday =? 31 + 29 - 1) then (2, 29)
  else
    let day := if leap && (yday >? 31 + 29 - 1) then yday - 1 else yday in
    let month := day / 31 in
    let endd := time.daysBeforeAt (month + 1) in
    let '(month, begin) :=
      if day >=? endd then (month + 1, endd) else (month, time.daysBeforeAt month) in
    (month + 1, day - begin + 1).

(** The check of one day of a year. *)
Definition yearDayOK (leap : bool) (yday : Z) : bool :=
  let '(m, d) := monthDay leap yday in
  (1 <=? m) && (m <=? 12) && (1 <=? d) && (d <=? 31)
  && (time.daysBeforeAt (m - 1) + (if leap && (m >=? 3) then 1 else 0) + (d - 1)
      =? yday).

(** The check of [n] consecutive days of a year from day [yday] on. *)
Fixpoint checkDays (leap : bool) (n : nat) (yday : Z) : bool :=
  match n with
  | O => true
  | S n' => yearDayOK leap yday && checkDays leap n' (yday + 1)
  end.

Lemma checkDays_all (leap : bool) (n : nat) (r k : Z) :
  checkDays leap n r = true -> r <= k < r + Z.of_nat n -> yearDayOK leap k = true.
Proof.
  revert r. induction n as [|n IH]; intros r Hc Hk; [lia|].
  cbn [checkDays] in Hc. apply andb_true_iff in Hc as [H0 Hrest].
  destruct (Z.eq_dec k r) as [-> | Hne]; [exact H0|].
  apply (IH (r + 1)); [exact Hrest | lia].
Qed.

Lemma year_days_checked :
  checkDays false 365 0 = true /\ checkDays true 366 0 = true.
Proof. split; vm_compute; reflexivity. Qed.

Lemma yearDayOK_all (leap : bool) (yday : Z) :
  0 <= yday <= 365 -> (yday = 365 -> leap = true) -> yearDayOK leap yday = true.
Proof.
  intros Hr Hl. destruct leap.
  - apply (checkDays_all true 366 0 yday (proj2 year_days_checked)). lia.
  - apply (checkDays_all false 365 0 yday (proj1 year_days_checked)).
    assert (yday <> 365) by (intros E; specialize (Hl E); discriminate). lia.
Qed.

(** The cycles of 100, 4 and 1 years [absDate] cuts off a day [r] of the
    400-year cycle, and the day of the year that is left. *)
Lemma cycle_years (r : Z) :
  0 <= r < 146097 ->
  let n100raw := r / 36524 in
  let n100 := n100raw - n100raw / 4 in
  let r100 := r - 36524 * n100 in
  let n4 := r100 / 1461 in
  let r4 := r100 - 1461 * n4 in
  let n1raw := r4 / 365 in
  let n1 := n1raw - n1raw / 4 in
  let yday := r4 - 365 * n1 in
  0 <= n100 <= 3 /\ 0 <= n4 <= 24 /\ 0 <= n1 <= 3 /\ 0 <= yday <= 365
  /\ (yday = 365 -> n1 = 3 /\ (n4 < 24 \/ n100 = 3))
  /\ r = 36524 * n100 + 1461 * n4 + 365 * n1 + yday.
Proof. intros Hr. cbv zeta. Z.div_mod_to_equations. lia. Qed.

Lemma daysSinceEpoch_cycle (n100 n4 n1 : Z) :
  0 <= n100 <= 3 -> 0 <= n4 <= 24 -> 0 <= n1 <= 3 ->
  time.daysSinceEpoch (100 * n100 + 4 * n4 + n1 + time.absoluteZeroYear)
  = 36524 * n100 + 1461 * n4 + 365 * n1.
Proof.
  intros H100 H4 H1.
  unfold time.daysSinceEpoch, time.daysPer400Years, time.daysPer100Years,
    time.daysPer4Years. cbv zeta.
  replace (100 * n100 + 4 * n4 + n1 + time.absoluteZeroYear - time.absoluteZeroYear)
    with (100 * n100 + 4 * n4 + n1) by lia.
  Z.div_mod_to_equations. lia.
Qed.

Lemma isLeap_mod (year : Z) :
  time.isLeap year
  = ((year mod 4 =? 0) && (negb (year mod 100 =? 0) || (year mod 400 =? 0))).
Proof.
  unfold time.isLeap.
  assert (H : forall k, 0 < k -> (Z.rem year k =? 0) = (year mod k =? 0)).
  { intros k Hk.
    destruct (Z.eqb_spec (Z.rem year k) 0) as [Hr | Hr];
      destruct (Z.eqb_spec (year mod k) 0) as [Hm | Hm]; try reflexivity; exfalso.
    - apply Z.rem_divide in Hr; [|lia]. apply Z.mod_divide in Hr; [|lia]. contradiction.
    - apply Z.mod_divide in Hm; [|lia]. apply Z.rem_divide in Hm; [|lia]. contradiction. }
  rewrite !H by lia. reflexivity.
Qed.

Lemma isLeap_cycle (n100 n4 n1 : Z) :
  0 <= n100 <= 3 -> 0 <= n4 <= 24 -> n1 = 3 -> (n4 < 24 \/ n100 = 3) ->
  time.isLeap (100 * n100 + 4 * n4 + n1 + time.absoluteZeroYear) = true.
Proof.
  intros H100 H4 H1 Hc. rewrite isLeap_mod. unfold time.absoluteZeroYear.
  apply andb_true_iff. split.
  - apply Z.eqb_eq. Z.div_mod_to_equations. lia.
  - apply orb_true_iff.
    destruct (Z.eq_dec n4 24) as [E | E].
    + right. apply Z.eqb_eq. Z.div_mod_to_equations. lia.
    + left. apply negb_true_iff. apply Z.eqb_neq. Z.div_mod_to_equations. lia.
Qed.

Lemma isLeap_period (year n : Z) : time.isLeap (year + 400 * n) = time.isLeap year.
Proof.
  rewrite !isLeap_mod.
  replace (year + 400 * n) with (year + (100 * n) * 4) at 1 by lia.
  replace (year + 400 * n) with (year + (4 * n) * 100) at 1 by lia.
  replace (year + 400 * n) with (year + n * 400) by lia.
  rewrite !Z.mod_add by discriminate. reflexivity.
Qed.

Lemma daysSinceEpoch_period (year n : Z) :
  time.daysSinceEpoch (year + 400 * n)
  = time.daysSinceEpoch year + time.daysPer400Years * n.
Proof.
  unfold time.daysSinceEpoch. cbv zeta.
  replace (year + 400 * n - time.absoluteZeroYear)
    with (year - time.absoluteZeroYear + n * 400) by lia.
  rewrite Z.div_add by discriminate.
  set (y := year - time.absoluteZeroYear).
  replace (y + n * 400 - 400 * (y / 400 + n)) with (y - 400 * (y / 400)) by lia.
  lia.
Qed.

(** [absDate] in its parts: the year from the cycles, month and day from
    the day of the year. *)
Lemma absDate_parts (x : Z) :
  let D := x / time.secondsPerDay in
  let n400 := D / 146097 in
  let r := D mod 146097 in
  let n100raw := r / 36524 in
  let n100 := n100raw - n100raw / 4 in
  let r100 := r - 36524 * n100 in
  let n4 := r100 / 1461 in
  let r4 := r100 - 1461 * n4 in
  let n1raw := r4 / 365 in
  let n1 := n1raw - n1raw / 4 in
  let yday := r4 - 365 * n1 in
  let year := 100 * n100 + 4 * n4 + n1 + time.absoluteZeroYear + 400 * n400 in
  time.absDate x
  = (year, fst (monthDay (time.isLeap year) yday),
     snd (monthDay (time.isLeap year) yday)).
Proof.
  cbv zeta. unfold time.absDate, monthDay.
  unfold time.daysPer400Years, time.daysPer100Years, time.daysPer4Years.
  change (365 * 400 + 97) with 146097.
  change (365 * 100 + 24) with 36524.
  change (365 * 4 + 1) with 1461.
  set (D := x / time.secondsPerDay).
  replace (D - 146097 * (D / 146097)) with (D mod 146097)
    by (rewrite Z.mod_eq; [reflexivity | discriminate]).
  set (r := D mod 146097).
  rewrite !(Z.shiftr_div_pow2 _ 2) by lia. change (2 ^ 2) with 4.
  set (n100 := r / 36524 - r / 36524 / 4).
  set (r100 := r - 36524 * n100).
  set (n4 := r100 / 1461).
  set (r4 := r100 - 1461 * n4).
  set (n1 := r4 / 365 - r4 / 365 / 4).
  set (yday := r4 - 365 * n1).
  replace (400 * (D / 146097) + 100 * n100 + 4 * n4 + n1 + time.absoluteZeroYear)
    with (100 * n100 + 4 * n4 + n1 + time.absoluteZeroYear + 400 * (D / 146097))
    by lia.
  set (year := 100 * n100 + 4 * n4 + n1 + time.absoluteZeroYear + 400 * (D / 146097)).
  destruct (time.isLeap year && (yday =? 31 + 29 - 1)); [reflexivity|].
  match goal with
  | |- context [if ?c then (?a, ?b) else (?a', ?b')] => destruct c
  end; reflexivity.
Qed.

(** The civil date [absDate] gives has a month in 1..12 and a day in
    1..31, and [time.Date] counts its days back to the day it came from. *)
Lemma absDate_inverse (x : Z) :
  1 <= snd (fst (time.absDate x)) <= 12
  /\ 1 <= snd (time.absDate x) <= 31
  /\ daysOfCivil (fst (fst (time.absDate x))) (snd (fst (time.absDate x)))
                 (snd (time.absDate x))
     = x / time.secondsPerDay.
Proof.
  rewrite (absDate_parts x). cbv zeta. cbn [fst snd].
  set (D := x / time.secondsPerDay).
  assert (Hr : 0 <= D mod 146097 < 146097) by (apply Z.mod_pos_bound; reflexivity).
  pose proof (cycle_years _ Hr) as Hc. cbv zeta in Hc.
  set (r := D mod 146097) in *.
  set (n100 := r / 36524 - r / 36524 / 4) in *.
  set (r100 := r - 36524 * n100) in *.
  set (n4 := r100 / 1461) in *.
  set (r4 := r100 - 1461 * n4) in *.
  set (n1 := r4 / 365 - r4 / 365 / 4) in *.
  set (yday := r4 - 365 * n1) in *.
  destruct Hc as (H100 & H4 & H1 & Hy & Hleap & Hsum).
  set (year0 := 100 * n100 + 4 * n4 + n1 + time.absoluteZeroYear).
  rewrite isLeap_period.
  assert (Hok : yearDayOK (time.isLeap year0) yday = true).
  { apply yearDayOK_all; [exact Hy|].
    intros E. destruct (Hleap E) as [E1 Hc]. now apply isLeap_cycle. }
  unfold yearDayOK in Hok.
  destruct (monthDay (time.isLeap year0) yday) as [m d]. cbn [fst snd].
  rewrite !andb_true_iff in Hok.
  destruct Hok as ((((Hm1 & Hm2) & Hd1) & Hd2) & Heq).
  apply Z.eqb_eq in Heq.
  unfold daysOfCivil. rewrite daysSinceEpoch_period, isLeap_period.
  unfold year0 at 1. rewrite daysSinceEpoch_cycle by assumption.
  unfold time.daysPer400Years.
  pose proof (Z.div_mod D 146097).
  repeat split; try lia.
Qed.

(** *** [datetime_diff] *)

Lemma norm_in_range (hi lo base : Z) :
  0 <= lo < base -> time.norm hi lo base = (hi, lo).
Proof.
  intros H. unfold time.norm.
  destruct (Z.ltb_spec lo 0) as [|_]; [lia|].
  destruct (Z.geb_spec lo base) as [|_]; [lia|]. reflexivity.
Qed.

(** The midnight [utils.civilMidnight] builds is the start of the day of
    the wall clock of [t]. *)
Lemma civilMidnight_day (t : time.Time) :
  time.unixSec (utils.civilMidnight t)
  = civilDay t * time.secondsPerDay - (time.unixToInternal + time.internalToAbsolute)
  /\ time.nsec (utils.civilMidnight t) = 0.
Proof.
  unfold utils.civilMidnight, time.Year, time.Month, time.Day, civilDay.
  destruct (absDate_inverse (time.abs t)) as (Hm & Hd & Hdays).
  set (y := fst (fst (time.absDate (time.abs t)))) in *.
  set (m := snd (fst (time.absDate (time.abs t)))) in *.
  set (d := snd (time.absDate (time.abs t))) in *.
  unfold time.Date.
  rewrite (norm_in_range y (m - 1) 12) by lia.
  change (time.norm 0 0 1000000000) with (0, 0). cbn iota beta.
  change (time.norm 0 0 60) with (0, 0). cbn iota beta.
  change (time.norm 0 0 60) with (0, 0). cbn iota beta.
  rewrite (norm_in_range d 0 24) by lia.
  cbn [time.unixSec time.nsec time.zoneOffset time.UTC].
  split; [|reflexivity].
  rewrite <- Hdays. unfold daysOfCivil.
  replace (m - 1 + 1) with m by lia.
  destruct (time.isLeap y && (m >=? 3));
    cbv delta [time.secondsPerDay time.secondsPerHour time.secondsPerMinute
               time.absoluteToInternal time.internalToUnix
               time.internalToAbsolute time.unixToInternal];
    lia.
Qed.

(** The largest number of whole days a [time.Duration] holds. *)
Definition maxDurationDays : Z := 106751.

Definition clampDays (days : Z) : Z :=
  Z.max (- maxDurationDays) (Z.min maxDurationDays days).

(** [utils.DaysBetween] counts the days between the days of the two wall
    clocks, whatever the times of day, up to the range of a duration. *)
Lemma DaysBetween_civil (date1 date2 : time.Time) :
  utils.DaysBetween date1 date2 = clampDays (civilDay date1 - civilDay date2).
Proof.
  unfold utils.DaysBetween, time.Sub.
  destruct (civilMidnight_day date1) as [Hs1 Hn1].
  destruct (civilMidnight_day date2) as [Hs2 Hn2].
  rewrite Hs1, Hs2, Hn1, Hn2.
  set (k := civilDay date1 - civilDay date2).
  replace ((civilDay date1 * time.secondsPerDay
            - (time.unixToInternal + time.internalToAbsolute)
            - (civilDay date2 * time.secondsPerDay
               - (time.unixToInternal + time.internalToAbsolute))) * time.Second
           + (0 - 0))
    with (k * (time.Hour * 24))
    by (unfold k, time.secondsPerDay, time.Hour, time.Minute, time.Second; lia).
  unfold clampDays, maxDurationDays, Go.isInt64, Go.minInt64, Go.maxInt64,
    time.minDuration, time.maxDuration, Go.minInt64, Go.maxInt64,
    time.Hour, time.Minute, time.Second.
  change (60 * (60 * 1000000000) * 24) with 86400000000000.
  change (- 2 ^ 63) with (-9223372036854775808).
  change (2 ^ 63 - 1) with 9223372036854775807.
  destruct (Z.leb_spec (-9223372036854775808) (k * 86400000000000)) as [Hlo | Hlo];
    destruct (Z.leb_spec (k * 86400000000000) 9223372036854775807) as [Hhi | Hhi];
    cbn [andb].
  - rewrite Z.quot_mul by discriminate. lia.
  - destruct (Z.ltb_spec (k * 86400000000000) 0) as [|_]; [lia|].
    change (Z.quot 9223372036854775807 86400000000000) with 106751. lia.
  - destruct (Z.ltb_spec (k * 86400000000000) 0) as [_|]; [|lia].
    change (Z.quot (-9223372036854775808) 86400000000000) with (-106751). lia.
  - lia.
Qed.

(** [q] is [d / u] rounded toward zero. *)
Definition truncatedQuotient (q d u : Z) : Prop :=
  Z.abs q * u <= Z.abs d < (Z.abs q + 1) * u /\ 0 <= q * d.

Lemma quot_truncates (d u : Z) : 0 < u -> truncatedQuotient (Z.quot d u) d u.
Proof.
  intros Hu. unfold truncatedQuotient.
  destruct (Z.le_gt_cases 0 d) as [Hd | Hd].
  - rewrite Z.quot_div_nonneg by lia.
    pose proof (Z.div_mod d u ltac:(lia)) as E.
    pose proof (Z.mod_pos_bound d u Hu) as B.
    assert (0 <= d / u) by (apply Z.div_pos; lia).
    rewrite (Z.abs_eq (d / u)), (Z.abs_eq d) by lia. nia.
  - assert (Hq : Z.quot d u = - ((- d) / u)).
    { replace d with (- (- d)) at 1 by lia.
      rewrite Z.quot_opp_l by lia. now rewrite Z.quot_div_nonneg by lia. }
    rewrite Hq.
    pose proof (Z.div_mod (- d) u ltac:(lia)) as E.
    pose proof (Z.mod_pos_bound (- d) u Hu) as B.
    assert (Hp : 0 <= (- d) / u) by (apply Z.div_pos; lia).
    set (q := (- d) / u) in *.
    rewrite Z.abs_opp, (Z.abs_eq q), (Z.abs_neq d) by lia. nia.
Qed.

Lemma Sub_exact (t u : time.Time) :
  Go.isInt64 (time.instant t - time.instant u) = true ->
  time.Sub t u = time.instant t - time.instant u.
Proof.
  unfold time.Sub, time.instant, time.Second. intros H.
  replace ((time.unixSec t - time.unixSec u) * 1000000000 + (time.nsec t - time.nsec u))
    with (time.unixSec t * 1000000000 + time.nsec t
          - (time.unixSec u * 1000000000 + time.nsec u)) by lia.
  now rewrite H.
Qed.



(** ** [format_number] *)

(** What the format string of [FormatNumber] asks [humanize.FormatFloat]
    for: [places] decimals after a point, and a comma between thousands
    when [commas] is set. *)
Definition numberDirectives (commas : bool) (places : Z) : humanize.directives :=
  humanize.mkDirectives places "." (if commas then "," else "") "" "-".

Lemma places_cases (places : Z) :
  0 <= places <= 9 ->
  In places [0; 1; 2; 3; 4; 5; 6; 7; 8; 9].
Proof. intros H. cbn [In]. lia. Qed.

Lemma parseFormat_formatStr (commas : bool) (places : Z) :
  0 <= places <= 9 ->
  humanize.parseFormat (formatStr commas places)
  = Some (numberDirectives commas places).
Proof.
  intros H. apply places_cases in H. cbn [In] in H.
  destruct commas;
    repeat (destruct H as [<- | H]; [reflexivity|]); destruct H.
Qed.

Lemma render_some (d : humanize.directives) (n rounder multiplier : float64.float64) :
  nth_error humanize.renderFloatPrecisionRounders (Z.to_nat (humanize.precision d))
  = Some rounder ->
  nth_error humanize.renderFloatPrecisionMultipliers (Z.to_nat (humanize.precision d))
  = Some multiplier ->
  0 <= humanize.precision d ->
  exists text, humanize.render d n = Some text.
Proof.
  intros Hr Hm Hp. unfold humanize.render.
  match goal with
  | |- context [let '(signStr, n0) := ?c in _] => destruct c as [signStr n']
  end.
  rewrite Hr, Hm.
  destruct (Z.ltb_spec (humanize.precision d) 0) as [|_]; [lia|].
  destruct (float64.Modf (float64.add n' rounder)) as [intf fracf].
  destruct (humanize.precision d =? 0); eexists; reflexivity.
Qed.

Lemma render_total (commas : bool) (places : Z) (n : float64.float64) :
  0 <= places <= 9 ->
  exists text, humanize.render (numberDirectives commas places) n = Some text.
Proof.
  intros H.
  assert (Hr : exists r, nth_error humanize.renderFloatPrecisionRounders
                                   (Z.to_nat places) = Some r).
  { apply places_cases in H. cbn [In] in H.
    repeat (destruct H as [<- | H]; [eexists; reflexivity|]). destruct H. }
  assert (Hm : exists m, nth_error humanize.renderFloatPrecisionMultipliers
                                   (Z.to_nat places) = Some m).
  { apply places_cases in H. cbn [In] in H.
    repeat (destruct H as [<- | H]; [eexists; reflexivity|]). destruct H. }
  destruct Hr as [r Hr]. destruct Hm as [m Hm].
  apply (render_some (numberDirectives commas places) n r m); cbn; [exact Hr | exact Hm | lia].
Qed.

Lemma FormatFloat_total (commas : bool) (places : Z) (n : float64.float64) :
  0 <= places <= 9 ->
  exists text, humanize.FormatFloat (formatStr commas places) n = Some text.
Proof.
  intros H. unfold humanize.FormatFloat.
  rewrite (parseFormat_formatStr commas places H).
  destruct (render_total commas places n H) as [text Ht]. rewrite Ht.
  destruct n as [s | [] | | s m e]; eexists; reflexivity.
Qed.



(** ** The migration of [@extra] *)

Import expressions.

Lemma append_assoc (a b c : string) : ((a ++ b) ++ c = a ++ (b ++ c))%string.
Proof. induction a as [|x a IH]; cbn; [reflexivity | now rewrite IH]. Qed.

Lemma append_nonEmpty (a b : string) : nonEmpty a = true -> nonEmpty (a ++ b) = true.
Proof. destruct a; [discriminate | reflexivity]. Qed.

Lemma nonEmpty_neq (a : string) : a <> "" -> nonEmpty a = true.
Proof. destruct a; [contradiction | reflexivity]. Qed.

Lemma Join_cons2 (a b : string) (rest : list string) (sep : string) :
  Go.Join (a :: b :: rest) sep = (a ++ sep ++ Go.Join (b :: rest) sep)%string.
Proof. reflexivity. Qed.

(** Below [extra], every further segment is appended to the path. *)
Lemma extra_resolvePath (p : string) (mode : ExtraVarsMapping) (keys : list string) :
  nonEmpty p = true ->
  resolvePath (IExtraMapper (mkExtraMapper p mode)) keys
  = Some (IExtraMapper (mkExtraMapper (Go.Join (p :: keys) ".") mode)).
Proof.
  revert p. induction keys as [|k rest IH]; intros p Hp; [reflexivity|].
  cbn [resolvePath Resolve]. unfold extraMapper_Resolve.
  cbn [path extraAs]. rewrite Hp.
  assert (Hne : String.eqb p "" = false).
  { unfold nonEmpty in Hp. now apply negb_true_iff in Hp. }
  rewrite Hne. cbn [andb app].
  rewrite IH.
  - do 3 f_equal. rewrite Join_cons2.
    destruct rest as [|r rs]; [reflexivity|].
    rewrite !Join_cons2. cbn [Go.Join]. now rewrite !append_assoc.
  - cbn [Go.Join]. now apply append_nonEmpty.
Qed.

Lemma mapGet_mapSet_same {V} (m : gomap V) (key : string) (v : V) :
  mapGet (mapSet m key v) key = Some v.
Proof. unfold mapSet. cbn [mapGet]. now rewrite String.eqb_refl. Qed.

Lemma mapGet_filter_other {V} (m : gomap V) (key k : string) :
  k <> key ->
  mapGet (filter (fun kv => negb (String.eqb (fst kv) key)) m) k = mapGet m k.
Proof.
  intros Hne. induction m as [|[k' v'] m IH]; [reflexivity|].
  cbn [filter fst]. destruct (String.eqb_spec k' key) as [-> | Hk]; cbn [negb mapGet].
  - destruct (String.eqb_spec key k) as [E | _]; [congruence | exact IH].
  - destruct (String.eqb k' k); [reflexivity | exact IH].
Qed.

Lemma mapGet_mapSet_other {V} (m : gomap V) (key k : string) (v : V) :
  k <> key -> mapGet (mapSet m key v) k = mapGet m k.
Proof.
  intros Hne. unfold mapSet. cbn [mapGet].
  destruct (String.eqb_spec key k) as [E | _]; [congruence|].
  now apply mapGet_filter_other.
Qed.

(** [extra] at the top level is the mapper for [@extra] of the flow's
    mode. *)
Lemma resolve_extra (validSchemes : list string) (mode : ExtraVarsMapping) :
  varMapper_Resolve (newMigrationVarMapper validSchemes mode) "extra"
  = IExtraMapper (mkExtraMapper "" mode).
Proof.
  unfold varMapper_Resolve, newMigrationVarMapper.
  cbn [substitutions base baseVars mapGet Go.ToLower].
  change (Go.ToLower "extra") with "extra".
  cbn [mapGet]. now rewrite mapGet_mapSet_same.
Qed.

(** The three rewritings of a path below [@extra]. *)
Definition extraRewriting (mode : ExtraVarsMapping) (p : string) : string :=
  match mode with
  | ExtraAsWebhookJSON => "run.webhook.json." ++ p
  | ExtraAsTriggerParams => "trigger.params." ++ p
  | ExtraAsFunction =>
      "if(is_error(run.webhook.json." ++ p ++ "), trigger.params." ++ p
      ++ ", run.webhook.json." ++ p ++ ")"
  end.


Lemma mapGet_schemes (validSchemes : list string) (init : gomap item) (k : string) :
  ~ In k validSchemes ->
  mapGet (fold_left (fun vars scheme => mapSet vars scheme (IVarMapper (schemeMapper scheme)))
                    validSchemes init) k
  = mapGet init k.
Proof.
  revert init. induction validSchemes as [|s rest IH]; intros init Hn; [reflexivity|].
  cbn [fold_left]. rewrite IH.
  - apply mapGet_mapSet_other. intros E. apply Hn. now left.
  - intros Hin. apply Hn. now right.
Qed.

Lemma resolve_contact (validSchemes : list string) (mode : ExtraVarsMapping) :
  varMapper_Resolve (newMigrationVarMapper validSchemes mode) "contact"
  = IVarMapper (contactMapper validSchemes).
Proof.
  unfold newMigrationVarMapper, newMigrationBaseVars.
  generalize (contactMapper validSchemes). intros c. reflexivity.
Qed.

Lemma resolve_contact_first_name (validSchemes : list string) :
  ~ In "first_name" validSchemes ->
  varMapper_Resolve (contactMapper validSchemes) "first_name"
  = IString "contact.first_name".
Proof.
  intros Hn. unfold varMapper_Resolve, contactMapper.
  change (Go.ToLower "first_name") with "first_name".
  cbn [substitutions base baseVars arbitraryNesting arbitraryVars].
  change (mapGet [("groups", ("join(contact.groups, " ++ quote ++ "," ++ quote ++ ")")%string)]
                 "first_name") with (@None string).
  rewrite mapGet_schemes by exact Hn. reflexivity.
Qed.

(** The scanner on the template of the scenario, given the rewritings of
    its two references. *)
Lemma scan_scenario (mapper : varMapper) :
  migrateIdentifier mapper "contact.first_name" = Some "@contact.first_name" ->
  migrateIdentifier mapper "extra.coupon" = Some "@trigger.params.coupon" ->
  scanTemplate mapper "Hello @contact.first_name, your @extra.coupon is ready"
               "" InText
  = Some "Hello @contact.first_name, your @trigger.params.coupon is ready".
Proof.
  intros H1 H2.
  cbn -[migrateIdentifier]. rewrite H1.
  cbn -[migrateIdentifier]. rewrite H2.
  reflexivity.
Qed.

Lemma scan_short (mapper : varMapper) :
  migrateIdentifier mapper "extra.coupon" = Some "@trigger.params.coupon" ->
  scanTemplate mapper "your @extra.coupon" "" InText
  = Some "your @trigger.params.coupon".
Proof.
  intros H2. cbn -[migrateIdentifier]. rewrite H2. reflexivity.
Qed.



(** ** Waits that can time out *)

(** [t.Add(d)] is the instant [d] nanoseconds after [t], in the location
    of [t]. *)
Lemma Add_instant (t : time.Time) (d : Z) :
  time.instant (time.Add t d) = time.instant t + d
  /\ time.loc (time.Add t d) = time.loc t.
Proof.
  unfold time.Add, time.instant.
  pose proof (Z.quot_rem' d 1000000000) as E.
  set (q := Z.quot d 1000000000) in *. set (r := Z.rem d 1000000000) in *.
  destruct (Z.geb_spec (time.nsec t + r) 1000000000) as [H1 | H1].
  - cbn [time.unixSec time.nsec time.loc]. split; [lia | reflexivity].
  - destruct (Z.ltb_spec (time.nsec t + r) 0) as [H2 | H2];
      cbn [time.unixSec time.nsec time.loc]; (split; [lia | reflexivity]).
Qed.

Lemma wrap64_small (z : Z) : Go.isInt64 z = true -> Go.wrap64 z = z.
Proof.
  unfold Go.isInt64, Go.minInt64, Go.maxInt64, Go.wrap64. intros H.
  apply andb_true_iff in H as [Hlo Hhi].
  apply Z.leb_le in Hlo. apply Z.leb_le in Hhi.
  rewrite Z.mod_small; lia.
Qed.

(** The run and the clock reading of the examples. *)
Definition sampleRun : flows.FlowRun :=
  flows.mkFlowRun "d2f852ec-7b4e-457f-ae7f-f8b243c49ff5" None flows.StatusActive [].

(** C8 fails when the timeout in nanoseconds does not fit a
    [time.Duration]: with a timeout of 9223372037 seconds the 64-bit
    product wraps around and [timeout_on] falls before the start of the
    wait. *)
Lemma timeout_on_overflow :
  exists timeoutOn,
    waits.TimeoutOn
      (waits.Begin (utils.Now sample.env)
                   (waits.mkBaseTimeoutWait (Some 9223372037) None) sampleRun)
    = Some timeoutOn
    /\ time.instant timeoutOn
       <> time.instant (utils.Now sample.env) + 9223372037 * time.Second
    /\ time.instant timeoutOn < time.instant (utils.Now sample.env).
Proof.
  eexists. split; [reflexivity|]. split; vm_compute; congruence.
Qed.

(** C8 (amended).  Beginning a wait with a timeout of [t] seconds, where
    [t] seconds fit a [time.Duration] (at most 9223372036 seconds either
    way), sets [timeout_on] to the time the wait begins plus [t] seconds, in
    UTC, and keeps the timeout.  Beginning a wait without a timeout
    leaves the wait as it is, an unset [timeout_on] unset. *)
Theorem begin_sets_timeout_on :
  forall (now : time.Time) (w : waits.baseTimeoutWait) (run : flows.FlowRun)
         (t : Z),
    - 9223372036 <= t <= 9223372036 ->
    (waits.Timeout_ w = Some t ->
       exists timeoutOn,
         waits.Begin now w run = waits.mkBaseTimeoutWait (Some t) (Some timeoutOn)
         /\ time.instant timeoutOn = time.instant now + t * time.Second
         /\ time.loc timeoutOn = time.UTC)
    /\ (waits.Timeout_ w = None ->
          waits.Begin now w run = w
          /\ (waits.TimeoutOn_ w = None ->
              waits.TimeoutOn (waits.Begin now w run) = None)).
Proof.
  intros now w run t Ht. split.
  - intros Hw. unfold waits.Begin. rewrite Hw.
    eexists. split; [reflexivity|].
    assert (E : Go.wrap64 (time.Second * Go.wrap64 t) = t * time.Second).
    { rewrite (wrap64_small t).
      - rewrite wrap64_small; [lia|].
        unfold Go.isInt64, Go.minInt64, Go.maxInt64, time.Second.
        apply andb_true_iff. split; apply Z.leb_le; lia.
      - unfold Go.isInt64, Go.minInt64, Go.maxInt64.
        apply andb_true_iff. split; apply Z.leb_le; lia. }
    rewrite E.
    destruct (Add_instant (time.toUTC now) (t * time.Second)) as [Hi Hl].
    rewrite Hi, Hl. split; reflexivity.
  - intros Hw. unfold waits.Begin, waits.TimeoutOn. rewrite Hw.
    split; [reflexivity | auto].
Qed.

Lemma begin_sets_timeout_on_witness :
  - 9223372036 <= 300 <= 9223372036
  /\ exists timeoutOn,
       waits.Begin (utils.Now sample.env)
                   (waits.mkBaseTimeoutWait (Some 300) None) sampleRun
       = waits.mkBaseTimeoutWait (Some 300) (Some timeoutOn)
       /\ time.instant timeoutOn
          = time.instant (utils.Now sample.env) + 300 * time.Second
       /\ time.loc timeoutOn = time.UTC.
Proof.
  assert (H : - 9223372036 <= 300 <= 9223372036) by lia.
  split; [exact H|].
  exact (proj1 (begin_sets_timeout_on (utils.Now sample.env)
                  (waits.mkBaseTimeoutWait (Some 300) None) sampleRun 300 H)
               eq_refl).
Defined.

(** ** Executing an action *)

(** The world lets a computation change the run: [runSetContact] does. *)
Lemma runSetContact_changes_run (c : flows.Contact) (w : actions.World) :
  flows.RunContact (actions.run w) = None ->
  actions.run (snd (actions.runSetContact (Some c) w)) <> actions.run w.
Proof.
  intros Hn E. cbn in E.
  assert (Hc : flows.RunContact (actions.run w) = Some c) by (rewrite <- E; reflexivity).
  congruence.
Qed.

